(** * ZwaveMeHelper: a shallow embedding of [zwaveme_assist/helper.py]

    The helper queries a ZAutomation server for its locations, builds a table
    of vocal commands and dispatches a recognised phrase to the HTTP call that
    switches the device.

    Modelling choices.
    - Python [str] values are [string]s (sequences of 8-bit characters), and
      [str.lower] is the ASCII case folding.
    - The JSON payload is given the shape the code reads: a location carries
      [title] and [namespaces], a namespace [id] and [params], a raw device
      [deviceId] and [deviceName].
    - The HTTP server is an oracle from the requests seen so far and the
      current request to a response; [requests.Response.raise_for_status]
      raises for a status in 400..599.
    - Effects (the [_commands] attribute, the requests sent, the log records)
      are threaded through a state monad in which a raised exception keeps
      the state reached so far. *)

From Stdlib Require Import String Ascii List ZArith Lia Bool.
Import ListNotations.
Open Scope string_scope.
Open Scope list_scope.

(** ** Python strings *)

Module PyStr.

(** Index of a slice bound in a sequence of length [n]: a negative bound
    counts from the end, and bounds are clamped to [0..n]. *)
Definition clamp_index (n i : Z) : Z :=
  (if i <? 0 then Z.max 0 (i + n) else Z.min i n)%Z.

(** [s[start:stop]] with step 1; [None] is an omitted bound. *)
Definition slice (s : string) (start stop : option Z) : string :=
  let n := Z.of_nat (String.length s) in
  let lo := match start with None => 0%Z | Some i => clamp_index n i end in
  let hi := match stop with None => n | Some i => clamp_index n i end in
  substring (Z.to_nat lo) (Z.to_nat (hi - lo)%Z) s.

Definition lower_char (c : ascii) : ascii :=
  let n := N_of_ascii c in
  if ((65 <=? n) && (n <=? 90))%N then ascii_of_N (n + 32) else c.

(** [s.lower()] *)
Fixpoint lower (s : string) : string :=
  match s with
  | EmptyString => EmptyString
  | String c t => String (lower_char c) (lower t)
  end.

(** The string without its last character. *)
Fixpoint init (s : string) : string :=
  match s with
  | EmptyString => EmptyString
  | String c EmptyString => EmptyString
  | String c t => String c (init t)
  end.

(** The last character, as a string of length at most one. *)
Fixpoint last (s : string) : string :=
  match s with
  | EmptyString => EmptyString
  | String c EmptyString => String c EmptyString
  | String c t => last t
  end.

Definition head (s : string) : string :=
  match s with
  | EmptyString => EmptyString
  | String c _ => String c EmptyString
  end.

Definition tail (s : string) : string :=
  match s with
  | EmptyString => EmptyString
  | String _ t => t
  end.

(** [template.format] applied to [args], for a template whose replacement fields are
    all written [{!s}] and an argument list already converted by [str];
    a field beyond the last argument is replaced by nothing. *)
Fixpoint format (template : string) (args : list string) : string :=
  match template with
  | String "{" (String "!" (String "s" (String "}" rest))) =>
      match args with
      | a :: args' => (a ++ format rest args')%string
      | [] => format rest []
      end
  | String c rest => String c (format rest args)
  | EmptyString => EmptyString
  end.

End PyStr.

(** ** Python dictionaries

    A [dict] with [str] keys keeps its keys in insertion order; assigning to
    a key already present replaces the value where the key stands. *)

Module PyDict.

Definition t (V : Type) : Type := list (string * V).

Definition empty {V : Type} : t V := [].

Fixpoint get {V : Type} (d : t V) (k : string) : option V :=
  match d with
  | [] => None
  | (k', v) :: d' => if String.eqb k k' then Some v else get d' k
  end.

Fixpoint set {V : Type} (d : t V) (k : string) (v : V) : t V :=
  match d with
  | [] => [(k, v)]
  | (k', v') :: d' =>
      if String.eqb k k' then (k', v) :: d' else (k', v') :: set d' k v
  end.

Definition keys {V : Type} (d : t V) : list string := map fst d.

End PyDict.


(** ** Exceptions and results *)

Inductive exn : Type :=
| HTTPError (status : Z)
| ValueError
| KeyError (key : string)
| TypeError
| IndexError.

Inductive result (A : Type) : Type :=
| Ok (a : A)
| Raise (e : exn).
Arguments Ok {A} a.
Arguments Raise {A} e.

(** ** The JSON payload of the ZAutomation API *)

Record RawDevice : Type := mkRawDevice
  { deviceId : string; deviceName : string }.

Record RawNamespace : Type := mkRawNamespace
  { id : string; params : list RawDevice }.

Record RawLocation : Type := mkRawLocation
  { title : string; namespaces : list RawNamespace }.

(** ** The domain objects

    Each object takes the decoded JSON object as its [__dict__]. *)

(** [ZAutomationDevice]; its [_components] attribute is set to [None] and
    never read. *)
Record ZAutomationDevice : Type := mkZAutomationDevice
  { device__dict__ : RawDevice }.

Definition device_name (self : ZAutomationDevice) : string :=
  deviceName (device__dict__ self).

Definition api_id (self : ZAutomationDevice) : string :=
  deviceId (device__dict__ self).

(** [ZAutomationDeviceList] *)
Record ZAutomationDeviceList : Type := mkZAutomationDeviceList
  { devicelist__dict__ : RawNamespace }.

(** [ZAutomationLocation] *)
Record ZAutomationLocation : Type := mkZAutomationLocation
  { location__dict__ : RawLocation;
    _switches : option (list ZAutomationDevice) }.

Definition new_ZAutomationLocation (data : RawLocation) : ZAutomationLocation :=
  {| location__dict__ := data; _switches := None |}.

Definition _SWITCHES : string := "devices_switchBinary".

Definition location_name (self : ZAutomationLocation) : string :=
  title (location__dict__ self).

(** The [switches] property: the devices and the location after the access. *)
Definition switches (self : ZAutomationLocation)
  : list ZAutomationDevice * ZAutomationLocation :=
  match _switches self with
  | None =>
      let filtered_list_switches :=
        filter (fun devices => String.eqb (id devices) _SWITCHES)
               (namespaces (location__dict__ self)) in
      let computed :=
        fold_left
          (fun acc raw_device =>
             let switches := mkZAutomationDeviceList raw_device in
             fold_left
               (fun acc raw_switch => acc ++ [mkZAutomationDevice raw_switch])
               (params (devicelist__dict__ switches)) acc)
          filtered_list_switches [] in
      (computed,
       {| location__dict__ := location__dict__ self;
          _switches := Some computed |})
  | Some memo => (memo, self)
  end.

(** ** Values passed across the dynamically typed interfaces *)

Inductive pyval : Type :=
| PNone
| PBool (b : bool)
| PStr (s : string)
| PDevice (d : ZAutomationDevice).

(** [str(v)], as the [{!s}] conversion applies it. *)
Definition str (v : pyval) : string :=
  match v with
  | PNone => "None"
  | PBool true => "True"
  | PBool false => "False"
  | PStr s => s
  | PDevice d => ("'" ++ device_name d ++ "[" ++ api_id d ++ "]'")%string
  end.

(** ** Credentials, requests and the server *)

Record Credentials : Type := mkCredentials
  { username : string; password : string; server_url : string }.

Record Request : Type := mkRequest
  { url : string; auth : string * string }.

(** What [result.json()] finds in the body. *)
Inductive Body : Type :=
| NotJson
| JsonObject (data : option (list RawLocation)).

Record Response : Type := mkResponse
  { status_code : Z; body : Body }.

(** The server answers a request knowing the requests it got before. *)
Definition Server : Type := list Request -> Request -> Response.

(** ** Log records *)

Inductive Level : Type := DEBUG | ERROR.

Inductive LogMsg : Type :=
| MsgNewCommand (command : string)
| MsgUnknown (ke : exn)
| MsgListRequested (full_url : string) (param : option (list pyval))
| MsgRequested (command : string)
| MsgWrongParam (class_name : string)
| MsgNoParam.

(** ** The strategies' and the helper's state *)

(** An [AbstractAPIStrategy] instance; its [_protocol] is [requests.get]. *)
Record Strategy : Type := mkStrategy
  { _credentials : Credentials; _url : string }.

(** A table entry [[action_strategy, device, action]]. *)
Definition Todo : Type := (Strategy * ZAutomationDevice * string)%type.

Record State : Type := mkState
  { credentials : Credentials;
    _commands : option (PyDict.t Todo);
    sent : list Request;
    logged : list (Level * LogMsg) }.

(** [ZwaveMeHelper.__init__] with the credentials the file holds. *)
Definition __init__ (creds : Credentials) : State :=
  {| credentials := creds; _commands := None; sent := []; logged := [] |}.

(** ** The monad of the methods *)

Definition M (A : Type) : Type := State -> result A * State.

Definition ret {A : Type} (a : A) : M A := fun st => (Ok a, st).

Definition bind {A B : Type} (m : M A) (f : A -> M B) : M B :=
  fun st =>
    match m st with
    | (Ok a, st') => f a st'
    | (Raise e, st') => (Raise e, st')
    end.

Definition raise {A : Type} (e : exn) : M A := fun st => (Raise e, st).

Definition lift {A : Type} (r : result A) : M A := fun st => (r, st).

Declare Scope monad_scope.
Delimit Scope monad_scope with monad.
Notation "x <- m ;; k" := (bind m (fun x => k))
  (at level 61, m at next level, right associativity) : monad_scope.
Notation "m ;; k" := (bind m (fun _ => k))
  (at level 61, right associativity) : monad_scope.
Open Scope monad_scope.

(** [try: body except KeyError as ke: handler ke] *)
Definition try_except_KeyError {A : Type} (body : M A) (handler : exn -> M A)
  : M A :=
  fun st =>
    match body st with
    | (Raise (KeyError k), st') => handler (KeyError k) st'
    | r => r
    end.

(** [for x in xs: body x] *)
Fixpoint for_ {A : Type} (xs : list A) (body : A -> M unit) : M unit :=
  match xs with
  | [] => ret tt
  | x :: xs' => body x ;; for_ xs' body
  end.

Definition log (level : Level) (msg : LogMsg) : M unit :=
  fun st =>
    (Ok tt,
     {| credentials := credentials st; _commands := _commands st;
        sent := sent st; logged := logged st ++ [(level, msg)] |}).

Definition get_commands : M (option (PyDict.t Todo)) :=
  fun st => (Ok (_commands st), st).

Definition set_commands (c : option (PyDict.t Todo)) : M unit :=
  fun st =>
    (Ok tt,
     {| credentials := credentials st; _commands := c;
        sent := sent st; logged := logged st |}).

Definition get_credentials : M Credentials :=
  fun st => (Ok (credentials st), st).

(** [d[k]] *)
Definition getitem {V : Type} (d : PyDict.t V) (k : string) : result V :=
  match PyDict.get d k with
  | Some v => Ok v
  | None => Raise (KeyError k)
  end.

(** [l[i]] *)
Definition list_getitem {A : Type} (l : list A) (i : nat) : result A :=
  match nth_error l i with
  | Some a => Ok a
  | None => Raise IndexError
  end.

(** [self._commands[k]]; [None] is not subscriptable. *)
Definition commands_getitem (k : string) : M Todo :=
  c <- get_commands ;;
  match c with
  | Some d => lift (getitem d k)
  | None => raise TypeError
  end.

(** [self._commands[k] = v] *)
Definition commands_setitem (k : string) (v : Todo) : M unit :=
  c <- get_commands ;;
  match c with
  | Some d => set_commands (Some (PyDict.set d k v))
  | None => raise TypeError
  end.

(** ** The API strategies *)

(** [self.method(url, auth=auth)] with [requests.get] *)
Definition http_get (server : Server) (u : string) (a : string * string)
  : M Response :=
  fun st =>
    let req := {| url := u; auth := a |} in
    (Ok (server (sent st) req),
     {| credentials := credentials st; _commands := _commands st;
        sent := sent st ++ [req]; logged := logged st |}).

(** [result.raise_for_status()] *)
Definition raise_for_status (r : Response) : M unit :=
  if ((400 <=? status_code r)%Z && (status_code r <? 600)%Z)%bool
  then raise (HTTPError (status_code r))
  else ret tt.

(** [result.json()["data"]] *)
Definition json_data (r : Response) : M (list RawLocation) :=
  match body r with
  | NotJson => raise ValueError
  | JsonObject None => raise (KeyError "data")
  | JsonObject (Some data) => ret data
  end.

Definition BASE_URL : string := "/ZAutomation/api/v1".

Definition server_full_url (self : Strategy) : string :=
  (server_url (_credentials self) ++ _url self)%string.

Definition authentication (self : Strategy) : string * string :=
  (username (_credentials self), password (_credentials self)).

Module APIListLocationStrategy.

Definition URL : string := "/locations".

Definition new (zautomation_credentials : Credentials) : Strategy :=
  {| _credentials := zautomation_credentials;
     _url := (BASE_URL ++ URL)%string |}.

Definition apply (server : Server) (self : Strategy)
           (param : option (list pyval)) : M (list ZAutomationLocation) :=
  log DEBUG (MsgListRequested (server_full_url self) param) ;;
  result <- http_get server (server_full_url self) (authentication self) ;;
  raise_for_status result ;;
  data <- json_data result ;;
  ret (fold_left
         (fun locations raw_location =>
            locations ++ [new_ZAutomationLocation raw_location])
         data []).

End APIListLocationStrategy.

Module APIDeviceActionStrategy.

Definition URL : string := "/devices/{!s}/command/{!s}".
Definition TURN_ON : string := "on".
Definition TURN_OFF : string := "off".

Definition new (zautomation_credentials : Credentials) : Strategy :=
  {| _credentials := zautomation_credentials;
     _url := (BASE_URL ++ URL)%string |}.

(** The method has no [return] statement: every path that does not raise
    yields [None]. *)
Definition apply (server : Server) (self : Strategy)
           (param : option (list pyval)) : M pyval :=
  match param with
  | Some p =>
      p0 <- lift (list_getitem p 0) ;;
      match p0 with
      | PDevice d =>
          p1 <- lift (list_getitem p 1) ;;
          let command :=
            PyStr.format (server_full_url self) [api_id d; str p1] in
          log DEBUG (MsgRequested command) ;;
          result <- http_get server command (authentication self) ;;
          raise_for_status result ;;
          ret PNone
      | _ =>
          log ERROR (MsgWrongParam "list") ;;
          ret PNone
      end
  | None =>
      log ERROR MsgNoParam ;;
      ret PNone
  end.

End APIDeviceActionStrategy.

(** ** ZwaveMeHelper *)

Definition BASE_ORDER : string := "Wave".

(** The body of the first loop of [__init_commands__]: the switches of each
    room, copied into a list stored under the room's name. *)
Definition collect_action_map (rooms : list ZAutomationLocation)
  : PyDict.t (list ZAutomationDevice) :=
  fold_left
    (fun action_map room =>
       let switches :=
         fold_left (fun switches switch => switches ++ [switch])
                   (fst (switches room)) [] in
       PyDict.set action_map (location_name room) switches)
    rooms PyDict.empty.

Definition __init_commands__ (server : Server) : M unit :=
  set_commands (Some PyDict.empty) ;;
  creds <- get_credentials ;;
  let strategy := APIListLocationStrategy.new creds in
  rooms <- APIListLocationStrategy.apply server strategy None ;;
  let ac := [APIDeviceActionStrategy.TURN_ON;
             APIDeviceActionStrategy.TURN_OFF;
             APIDeviceActionStrategy.TURN_OFF] in
  let ac_voc := [APIDeviceActionStrategy.TURN_ON;
                 APIDeviceActionStrategy.TURN_OFF;
                 PyStr.slice APIDeviceActionStrategy.TURN_OFF None
                             (Some (-1)%Z)] in
  let action_strategy := APIDeviceActionStrategy.new creds in
  let action_map := collect_action_map rooms in
  for_ (seq 0 (length ac)) (fun action_idx =>
    for_ (PyDict.keys action_map) (fun room =>
      devices <- lift (getitem action_map room) ;;
      for_ devices (fun device =>
        voc <- lift (list_getitem ac_voc action_idx) ;;
        let command :=
          PyStr.lower
            (PyStr.format "{!s} {!s} {!s} in {!s}"
                          [BASE_ORDER; voc; device_name device; room]) in
        log DEBUG (MsgNewCommand command) ;;
        action <- lift (list_getitem ac action_idx) ;;
        commands_setitem command (action_strategy, device, action)))).

Definition get_vocal_commands (server : Server) : M (list string) :=
  c <- get_commands ;;
  match c with
  | None => __init_commands__ server
  | Some _ => ret tt
  end ;;
  c <- get_commands ;;
  match c with
  | Some d => ret (PyDict.keys d)
  | None => raise TypeError
  end.

Definition quote : string := "'".

(** [clean_command] on a [str]. *)
Definition clean_command_str (command : string) : string :=
  if (String.eqb (PyStr.slice command None (Some 1%Z)) quote
      && String.eqb (PyStr.slice command (Some (-1)%Z) None) quote)%bool
  then PyStr.slice command (Some 1%Z) (Some (-1)%Z)
  else command.

(** [ZwaveMeHelper.clean_command]: only a [str] can be sliced here. *)
Definition clean_command (command : pyval) : result string :=
  match command with
  | PStr s => Ok (clean_command_str s)
  | PNone | PBool _ | PDevice _ => Raise TypeError
  end.

Definition do_vocal_commands (server : Server) (order : pyval) : M bool :=
  c <- get_commands ;;
  match c with
  | None => __init_commands__ server
  | Some _ => ret tt
  end ;;
  cleaned_order <- lift (clean_command order) ;;
  try_except_KeyError
    (todo <- commands_getitem cleaned_order ;;
     let '(todo0, todo1, todo2) := todo in
     APIDeviceActionStrategy.apply server todo0
       (Some [PDevice todo1; PStr todo2]) ;;
     ret true)
    (fun ke =>
       log ERROR (MsgUnknown ke) ;;
       ret false).

(** ** Definitions used to state the properties *)

(** The devices a location's payload describes: the [params] of every
    namespace tagged as binary switches, in order. *)
Definition switch_devices (data : RawLocation) : list ZAutomationDevice :=
  flat_map (fun ns => map mkZAutomationDevice (params ns))
           (filter (fun ns => String.eqb (id ns) "devices_switchBinary")
                   (namespaces data)).

(** The request a strategy sends to [u]. *)
Definition request_of (self : Strategy) (u : string) : Request :=
  {| url := u; auth := authentication self |}.

Definition is_error_status (status : Z) : bool :=
  ((400 <=? status)%Z && (status <? 600)%Z)%bool.

Definition add_sent (st : State) (r : Request) : State :=
  {| credentials := credentials st; _commands := _commands st;
     sent := sent st ++ [r]; logged := logged st |}.

Definition add_logged (st : State) (l : list (Level * LogMsg)) : State :=
  {| credentials := credentials st; _commands := _commands st;
     sent := sent st; logged := logged st ++ l |}.

(** ** The table as a function of the rooms *)

(** The assignments [self._commands[k] = v] of a list of pairs, in order. *)
Definition apply_writes (ws : list (string * Todo)) (d : PyDict.t Todo)
  : PyDict.t Todo :=
  fold_left (fun d kv => PyDict.set d (fst kv) (snd kv)) ws d.

(** The records logged along these assignments. *)
Definition log_writes (ws : list (string * Todo)) : list (Level * LogMsg) :=
  map (fun kv => (DEBUG, MsgNewCommand (fst kv))) ws.

Definition lookup_or_nil {V : Type} (d : PyDict.t (list V)) (k : string)
  : list V :=
  match PyDict.get d k with
  | Some l => l
  | None => []
  end.

Definition command_phrase (voc name room : string) : string :=
  PyStr.lower
    (PyStr.format "{!s} {!s} {!s} in {!s}" [BASE_ORDER; voc; name; room]).

(** The assignments of the innermost loop for one spoken word, one action
    and one room name. *)
Definition room_writes (action_strategy : Strategy) (voc action : string)
           (action_map : PyDict.t (list ZAutomationDevice)) (room : string)
  : list (string * Todo) :=
  map (fun device =>
         (command_phrase voc (device_name device) room,
          (action_strategy, device, action)))
      (lookup_or_nil action_map room).

Definition action_writes (action_strategy : Strategy)
           (action_map : PyDict.t (list ZAutomationDevice))
           (va : string * string) : list (string * Todo) :=
  flat_map (room_writes action_strategy (fst va) (snd va) action_map)
           (PyDict.keys action_map).

(** The spoken words with the action each stands for, in the order of the
    outer loop. *)
Definition vocabulary : list (string * string) :=
  [("on", "on"); ("off", "off"); ("of", "off")].

Definition command_writes (action_strategy : Strategy)
           (action_map : PyDict.t (list ZAutomationDevice))
  : list (string * Todo) :=
  flat_map (action_writes action_strategy action_map) vocabulary.

Definition build_commands (creds : Credentials)
           (rooms : list ZAutomationLocation) : PyDict.t Todo :=
  apply_writes
    (command_writes (APIDeviceActionStrategy.new creds)
                    (collect_action_map rooms))
    PyDict.empty.

(** A computation that succeeds and does nothing but the assignments [ws]
    to a table that has been assigned. *)
Definition performs (m : M unit) (ws : list (string * Todo)) : Prop :=
  forall st d,
    _commands st = Some d ->
    m st = (Ok tt,
            {| credentials := credentials st;
               _commands := Some (apply_writes ws d);
               sent := sent st;
               logged := logged st ++ log_writes ws |}).

(** The request of [APIListLocationStrategy.apply]. *)
Definition listing_request (creds : Credentials) : Request :=
  request_of (APIListLocationStrategy.new creds)
             (server_full_url (APIListLocationStrategy.new creds)).

(** The state once [__init_commands__] has sent its request. *)
Definition listing_started (st : State) : State :=
  {| credentials := credentials st;
     _commands := Some PyDict.empty;
     sent := sent st ++ [listing_request (credentials st)];
     logged :=
       logged st
       ++ [(DEBUG,
            MsgListRequested
              (server_full_url (APIListLocationStrategy.new (credentials st)))
              None)] |}.

(** The state once [__init_commands__] has filled the table from [data]. *)
Definition commands_built (st : State) (data : list RawLocation) : State :=
  let ws :=
    command_writes (APIDeviceActionStrategy.new (credentials st))
                   (collect_action_map (map new_ZAutomationLocation data)) in
  {| credentials := credentials st;
     _commands :=
       Some (build_commands (credentials st)
                            (map new_ZAutomationLocation data));
     sent := sent (listing_started st);
     logged := logged (listing_started st) ++ log_writes ws |}.

(** ** Sequences of calls *)

(** What [do_vocal_commands] does once the table test is passed. *)
Definition dispatch (server : Server) (order : pyval) : M bool :=
  cleaned_order <- lift (clean_command order) ;;
  try_except_KeyError
    (todo <- commands_getitem cleaned_order ;;
     let '(todo0, todo1, todo2) := todo in
     APIDeviceActionStrategy.apply server todo0
       (Some [PDevice todo1; PStr todo2]) ;;
     ret true)
    (fun ke =>
       log ERROR (MsgUnknown ke) ;;
       ret false).

(** The request [APIDeviceActionStrategy.apply] sends for a table entry. *)
Definition action_command (todo : Todo) : string :=
  let '(todo0, todo1, todo2) := todo in
  PyStr.format (server_full_url todo0) [api_id todo1; todo2].

Definition action_request (todo : Todo) : Request :=
  request_of (fst (fst todo)) (action_command todo).

(** The state once the request of a table entry has been sent. *)
Definition action_sent (st : State) (todo : Todo) : State :=
  add_sent (add_logged st [(DEBUG, MsgRequested (action_command todo))])
           (action_request todo).

(** A call of one of the two public methods that use the table. *)
Inductive Call : Type :=
| GetVocalCommands
| DoVocalCommands (order : pyval).

(** The helper after a call; an exception leaves the caller with the helper
    as the call left it. *)
Definition run_call (server : Server) (st : State) (c : Call) : State :=
  match c with
  | GetVocalCommands => snd (get_vocal_commands server st)
  | DoVocalCommands order => snd (do_vocal_commands server order st)
  end.

Definition run_calls (server : Server) (st : State) (cs : list Call) : State :=
  fold_left (run_call server) cs st.

Definition is_listing (r : Level * LogMsg) : bool :=
  match snd r with
  | MsgListRequested _ _ => true
  | _ => false
  end.

(** The number of calls of [APIListLocationStrategy.apply] so far; each
    logs one record when it starts, and sends its request next. *)
Definition listing_calls (st : State) : nat :=
  length (filter is_listing (logged st)).

(** ** Invariants of a helper in use *)

(** What holds of a table that [__init_commands__] has made. *)
Definition table_ok (creds : Credentials) (d : PyDict.t Todo) : Prop :=
  NoDup (PyDict.keys d)
  /\ forall k v,
      PyDict.get d k = Some v ->
      PyStr.lower k = k
      /\ fst (fst v) = APIDeviceActionStrategy.new creds
      /\ (snd v = "on" \/ snd v = "off").

(** The requests a helper holding [creds] may send. *)
Definition request_ok (creds : Credentials) (r : Request) : Prop :=
  r = listing_request creds
  \/ exists device action,
      (action = "on" \/ action = "off")
      /\ r = action_request (APIDeviceActionStrategy.new creds, device, action).

Definition helper_ok (creds : Credentials) (st : State) : Prop :=
  credentials st = creds
  /\ (forall d, _commands st = Some d -> table_ok creds d)
  /\ Forall (request_ok creds) (sent st).

(** No character of [s] is a brace. *)
Fixpoint brace_free (s : string) : bool :=
  match s with
  | EmptyString => true
  | String c t =>
      (negb (Ascii.eqb c "{") && negb (Ascii.eqb c "}") && brace_free t)%bool
  end.

(** ** The entry point *)

(** [s.replace(old, new)] for a non-empty [old]: the occurrences of [old]
    are taken from left to right, without overlap; [skip] counts the
    characters of an occurrence still to be passed over. *)
Fixpoint replace_from (old new : string) (skip : nat) (s : string) : string :=
  match s with
  | EmptyString => EmptyString
  | String c t =>
      match skip with
      | S k => replace_from old new k t
      | O =>
          if String.prefix old s
          then (new ++ replace_from old new (String.length old - 1) t)%string
          else String c (replace_from old new 0 t)
      end
  end.

Definition str_replace (s old new : string) : string :=
  replace_from old new 0 s.

Definition googled_command : string :=
  PyStr.lower "'Wave on The Plug Switch in The Living Room'".

(** [main], for a helper made from [creds]: the lines printed, how the run
    ends, and the helper at that point.  [time.sleep] has no effect here. *)
Definition main (server : Server) (creds : Credentials)
  : list string * result unit * State :=
  let helper := __init__ creds in
  match clean_command (PStr googled_command) with
  | Raise e => ([], Raise e, helper)
  | Ok cleaned =>
      let printed := [cleaned] in
      match get_vocal_commands server helper with
      | (Raise e, helper) => (printed, Raise e, helper)
      | (Ok commands, helper) =>
          let printed :=
            fold_left (fun printed command => printed ++ [command])
                      commands printed in
          match do_vocal_commands server (PStr googled_command) helper with
          | (Raise e, helper) => (printed, Raise e, helper)
          | (Ok _, helper) =>
              match do_vocal_commands server
                      (PStr (str_replace googled_command " on " " off "))
                      helper with
              | (Raise e, helper) => (printed, Raise e, helper)
              | (Ok _, helper) => (printed, Ok tt, helper)
              end
          end
      end
  end.

(** ** Sample installations *)

Definition sample_credentials : Credentials :=
  {| username := "admin"; password := "secret";
     server_url := "http://zway:8083" |}.

Definition plug_switch : RawDevice :=
  {| deviceId := "ZWayVDev_zway_2-0-37"; deviceName := "The Plug Switch" |}.

Definition room_of (room_title : string) (devices : list RawDevice)
  : RawLocation :=
  {| title := room_title;
     namespaces := [ {| id := "devices_all"; params := devices |};
                     {| id := "devices_switchBinary"; params := devices |} ] |}.

Definition lamp : RawDevice :=
  {| deviceId := "ZWayVDev_zway_3-0-37"; deviceName := "Lamp" |}.

Definition second_lamp : RawDevice :=
  {| deviceId := "ZWayVDev_zway_4-0-37"; deviceName := "Lamp" |}.

Definition fan : RawDevice :=
  {| deviceId := "ZWayVDev_zway_5-0-37"; deviceName := "Fan" |}.

(** A server that lists [data] and accepts every device command. *)
Definition serving (data : list RawLocation) : Server :=
  fun _ req =>
    if String.eqb (url req) "http://zway:8083/ZAutomation/api/v1/locations"
    then {| status_code := 200; body := JsonObject (Some data) |}
    else {| status_code := 200; body := NotJson |}.

(** A server that is out of service. *)
Definition unavailable : Server :=
  fun _ _ => {| status_code := 503; body := NotJson |}.

(** * Properties *)

(** ** Slices *)

Lemma substring_0_0 (s : string) : substring 0 0 s = EmptyString.
Proof. destruct s; reflexivity. Qed.

Lemma slice_head (s : string) :
  PyStr.slice s None (Some 1%Z) = PyStr.head s.
Proof.
  unfold PyStr.slice, PyStr.clamp_index.
  destruct s as [|c t]; [reflexivity|].
  cbn [String.length PyStr.head Z.ltb Z.compare].
  replace (Z.min 1 (Z.of_nat (S (String.length t)))) with 1%Z by lia.
  change (Z.to_nat 0) with 0; change (Z.to_nat (1 - 0)) with 1.
  cbn [substring]. now rewrite substring_0_0.
Qed.

Lemma substring_last (s : string) :
  substring (String.length s - 1) 1 s = PyStr.last s.
Proof.
  induction s as [|c t IH]; [reflexivity|].
  destruct t as [|c' t'].
  - reflexivity.
  - cbn [String.length Nat.sub] in *.
    rewrite Nat.sub_0_r in IH.
    cbn [substring PyStr.last]. exact IH.
Qed.

Lemma slice_last (s : string) :
  PyStr.slice s (Some (-1)%Z) None = PyStr.last s.
Proof.
  unfold PyStr.slice, PyStr.clamp_index.
  rewrite <- substring_last.
  destruct s as [|c t]; [reflexivity|].
  cbn [String.length Z.ltb Z.compare].
  set (n := String.length t).
  replace (Z.to_nat (Z.max 0 (-1 + Z.of_nat (S n)))) with (S n - 1) by lia.
  replace (Z.to_nat (Z.of_nat (S n) - Z.max 0 (-1 + Z.of_nat (S n))))
    with 1 by lia.
  reflexivity.
Qed.

Lemma substring_0_S (n : nat) (c : ascii) (t : string) :
  substring 0 (S n) (String c t) = String c (substring 0 n t).
Proof. reflexivity. Qed.

Lemma substring_init (s : string) :
  substring 0 (String.length s - 1) s = PyStr.init s.
Proof.
  induction s as [|c t IH]; [reflexivity|].
  destruct t as [|c' t'].
  - reflexivity.
  - cbn [String.length Nat.sub] in *.
    rewrite Nat.sub_0_r in IH.
    rewrite substring_0_S, IH. reflexivity.
Qed.

Lemma slice_inner (s : string) :
  PyStr.slice s (Some 1%Z) (Some (-1)%Z) = PyStr.init (PyStr.tail s).
Proof.
  unfold PyStr.slice, PyStr.clamp_index.
  destruct s as [|c t]; [reflexivity|].
  cbn [String.length Z.ltb Z.compare PyStr.tail].
  set (n := String.length t).
  replace (Z.to_nat (Z.min 1 (Z.of_nat (S n)))) with 1 by lia.
  replace (Z.to_nat (Z.max 0 (-1 + Z.of_nat (S n))
                     - Z.min 1 (Z.of_nat (S n)))) with (n - 1) by lia.
  cbn [substring]. apply substring_init.
Qed.

Lemma clean_command_str_eq (s : string) :
  clean_command_str s =
  if (String.eqb (PyStr.head s) quote && String.eqb (PyStr.last s) quote)%bool
  then PyStr.init (PyStr.tail s) else s.
Proof.
  unfold clean_command_str.
  now rewrite slice_head, slice_last, slice_inner.
Qed.

Lemma head_quote (s : string) :
  PyStr.head s = quote <-> String.get 0 s = Some "'"%char.
Proof.
  destruct s as [|c t]; cbn; unfold quote.
  - split; discriminate.
  - split; intros H; inversion H; reflexivity.
Qed.

Lemma last_quote (s : string) :
  PyStr.last s = quote <-> String.get (String.length s - 1) s = Some "'"%char.
Proof.
  induction s as [|c t IH].
  - cbn. unfold quote. split; discriminate.
  - destruct t as [|c' t'].
    + cbn. unfold quote. split; intros H; inversion H; reflexivity.
    + cbn [String.length Nat.sub] in *. rewrite Nat.sub_0_r in IH.
      cbn [PyStr.last String.get]. exact IH.
Qed.

Lemma init_last (s : string) :
  s <> EmptyString -> s = (PyStr.init s ++ PyStr.last s)%string.
Proof.
  induction s as [|c t IH]; [congruence|].
  intros _. destruct t as [|c' t'].
  - reflexivity.
  - cbn [PyStr.init PyStr.last String.append].
    f_equal. apply IH. discriminate.
Qed.

(** ** clean_command *)

Lemma clean_command_str_unquoted (s : string) :
  ~ (String.get 0 s = Some "'"%char
     /\ String.get (String.length s - 1) s = Some "'"%char) ->
  clean_command_str s = s.
Proof.
  intros H. rewrite clean_command_str_eq.
  destruct (String.eqb_spec (PyStr.head s) quote) as [Hh|Hh]; [|reflexivity].
  destruct (String.eqb_spec (PyStr.last s) quote) as [Hl|Hl]; [|reflexivity].
  exfalso. apply H. split; [now apply head_quote | now apply last_quote].
Qed.

Lemma clean_command_str_quoted (s : string) :
  2 <= String.length s ->
  String.get 0 s = Some "'"%char ->
  String.get (String.length s - 1) s = Some "'"%char ->
  s = ("'" ++ clean_command_str s ++ "'")%string.
Proof.
  intros Hlen Hh Hl. rewrite clean_command_str_eq.
  apply head_quote in Hh. apply last_quote in Hl.
  rewrite Hh, Hl, String.eqb_refl. cbn [andb].
  destruct s as [|c t]; [cbn in Hlen; lia|].
  cbn in Hh. inversion Hh; subst c. cbn [PyStr.tail].
  destruct t as [|c' t']; [cbn in Hlen; lia|].
  cbn [PyStr.last] in Hl. rewrite <- Hl at 2.
  cbn [String.append]. f_equal.
  apply init_last. discriminate.
Qed.

(** C7, as stated, fails on the string made of one single quote: its first
    and its last character are that quote, and the result is the empty
    string, which is not the string with a quote removed at each end. *)
Lemma clean_command_lone_quote :
  ~ (forall s : string,
        String.get 0 s = Some "'"%char ->
        String.get (String.length s - 1) s = Some "'"%char ->
        exists r, clean_command (PStr s) = Ok r
                  /\ s = ("'" ++ r ++ "'")%string).
Proof.
  intros H.
  destruct (H "'" eq_refl eq_refl) as (r & _ & Hr).
  destruct r; discriminate Hr.
Qed.

(** C7 (amended): [clean_command] returns a string of at least two
    characters that begins and ends with a single quote without these two
    characters, maps the string made of one single quote to the empty
    string, and returns every other string unchanged; the three examples of
    the specification hold. *)
Theorem clean_command_strips_enclosing_quotes (s : string) :
  exists r,
    clean_command (PStr s) = Ok r
    /\ (2 <= String.length s ->
        String.get 0 s = Some "'"%char ->
        String.get (String.length s - 1) s = Some "'"%char ->
        s = ("'" ++ r ++ "'")%string)
    /\ (s = "'" -> r = EmptyString)
    /\ (~ (String.get 0 s = Some "'"%char
           /\ String.get (String.length s - 1) s = Some "'"%char) ->
        r = s)
    /\ clean_command (PStr "'wave on x in y'") = Ok "wave on x in y"
    /\ clean_command (PStr "wave on x in y") = Ok "wave on x in y"
    /\ clean_command (PStr "'unterminated") = Ok "'unterminated".
Proof.
  exists (clean_command_str s). repeat split.
  - apply clean_command_str_quoted.
  - intros ->. reflexivity.
  - apply clean_command_str_unquoted.
Qed.

Lemma clean_command_strips_enclosing_quotes_witness :
  exists r,
    clean_command (PStr "'on'") = Ok r
    /\ "'on'" = ("'" ++ r ++ "'")%string
    /\ clean_command (PStr "on") = Ok "on".
Proof.
  destruct (clean_command_strips_enclosing_quotes "'on'")
    as (r & Hr & Hq & _ & _ & _).
  destruct (clean_command_strips_enclosing_quotes "on")
    as (r' & Hr' & _ & _ & Hu & _).
  exists r. split; [exact Hr|]. split.
  - apply Hq; [cbn; lia | reflexivity | reflexivity].
  - rewrite Hr'. f_equal. apply Hu. cbn. intros [H _]. discriminate H.
Defined.

(** ** Loops that append to a list *)

Lemma fold_left_append_map {A B : Type} (g : A -> B) (xs : list A)
      (acc : list B) :
  fold_left (fun acc x => acc ++ [g x]) xs acc = acc ++ map g xs.
Proof.
  revert acc. induction xs as [|x xs IH]; intros acc; cbn.
  - now rewrite app_nil_r.
  - rewrite IH, <- app_assoc. reflexivity.
Qed.

Lemma fold_left_append_flat_map {A B C : Type} (f : A -> list B) (g : B -> C)
      (xs : list A) (acc : list C) :
  fold_left (fun acc x => fold_left (fun acc y => acc ++ [g y]) (f x) acc)
            xs acc
  = acc ++ flat_map (fun x => map g (f x)) xs.
Proof.
  revert acc. induction xs as [|x xs IH]; intros acc; cbn.
  - now rewrite app_nil_r.
  - rewrite IH, fold_left_append_map, <- app_assoc. reflexivity.
Qed.

(** ** ZAutomationLocation.switches *)

Lemma switches_fresh (data : RawLocation) :
  switches (new_ZAutomationLocation data)
  = (switch_devices data,
     {| location__dict__ := data; _switches := Some (switch_devices data) |}).
Proof.
  unfold switches, new_ZAutomationLocation, switch_devices, _SWITCHES.
  cbn [_switches location__dict__ devicelist__dict__].
  rewrite (fold_left_append_flat_map params mkZAutomationDevice).
  reflexivity.
Qed.

(** C9: the first access to [switches] yields the devices of the [params]
    arrays of the namespaces tagged [devices_switchBinary], in order, and
    stores them; an access to a location that holds a memoized list returns
    that list and leaves the location as it is, whatever its namespaces
    are, so a second access returns what the first one did. *)
Theorem switches_memoized (data : RawLocation) :
  let first := switches (new_ZAutomationLocation data) in
  fst first
  = flat_map (fun ns => map mkZAutomationDevice (params ns))
             (filter (fun ns => String.eqb (id ns) "devices_switchBinary")
                     (namespaces data))
  /\ _switches (snd first) = Some (fst first)
  /\ switches (snd first) = (fst first, snd first)
  /\ (forall (data' : RawLocation) (memo : list ZAutomationDevice),
         switches {| location__dict__ := data'; _switches := Some memo |}
         = (memo, {| location__dict__ := data'; _switches := Some memo |})).
Proof.
  cbv zeta. rewrite switches_fresh. cbn [fst snd _switches].
  repeat split.
Qed.

(** ** The strategies *)

Ltac unfold_monad :=
  unfold commands_getitem, commands_setitem;
  unfold log, http_get, raise_for_status, json_data,
    get_commands, set_commands, get_credentials;
  unfold bind, ret, raise, lift.

Lemma list_apply_run (server : Server) (self : Strategy)
      (param : option (list pyval)) (st : State) :
  let full_url := server_full_url self in
  let req := request_of self full_url in
  let resp := server (sent st) req in
  let st' := add_sent (add_logged st [(DEBUG, MsgListRequested full_url param)])
                      req in
  APIListLocationStrategy.apply server self param st
  = if is_error_status (status_code resp)
    then (Raise (HTTPError (status_code resp)), st')
    else match body resp with
         | NotJson => (Raise ValueError, st')
         | JsonObject None => (Raise (KeyError "data"), st')
         | JsonObject (Some data) =>
             (Ok (map new_ZAutomationLocation data), st')
         end.
Proof.
  cbv zeta. unfold APIListLocationStrategy.apply, is_error_status, request_of.
  unfold_monad. cbn [sent logged credentials _commands].
  set (resp := server (sent st) _).
  destruct ((400 <=? status_code resp)%Z && (status_code resp <? 600)%Z)%bool;
    [reflexivity|].
  destruct (body resp) as [|[data|]]; try reflexivity.
  cbn. rewrite (fold_left_append_map new_ZAutomationLocation). reflexivity.
Qed.

(** C8: a listing request answered with a status in 400..599 raises the
    HTTP error after that one request, with no second attempt; answered with
    another status and a body whose [data] field is a list, it returns one
    location per element of [data], in the order of [data]. *)
Theorem list_locations_apply (server : Server) (creds : Credentials)
        (param : option (list pyval)) (st : State) :
  let self := APIListLocationStrategy.new creds in
  let req := {| url := (server_url creds ++ "/ZAutomation/api/v1/locations")%string;
                auth := (username creds, password creds) |} in
  let resp := server (sent st) req in
  let run := APIListLocationStrategy.apply server self param st in
  sent (snd run) = sent st ++ [req]
  /\ ((400 <= status_code resp < 600)%Z ->
      fst run = Raise (HTTPError (status_code resp)))
  /\ (forall data : list RawLocation,
         ~ (400 <= status_code resp < 600)%Z ->
         body resp = JsonObject (Some data) ->
         fst run = Ok (map new_ZAutomationLocation data)
         /\ length (map new_ZAutomationLocation data) = length data
         /\ forall i raw, nth_error data i = Some raw ->
              nth_error (map new_ZAutomationLocation data) i
              = Some (new_ZAutomationLocation raw)).
Proof.
  cbv zeta. rewrite list_apply_run. cbv zeta.
  change (request_of (APIListLocationStrategy.new creds)
            (server_full_url (APIListLocationStrategy.new creds)))
    with {| url := (server_url creds ++ "/ZAutomation/api/v1/locations")%string;
            auth := (username creds, password creds) |}.
  set (req := {| url := _; auth := _ |}).
  set (resp := server (sent st) req).
  unfold is_error_status.
  split; [|split].
  - destruct (_ && _)%bool; [reflexivity|].
    destruct (body resp) as [|[data|]]; reflexivity.
  - intros H.
    replace ((400 <=? status_code resp)%Z && (status_code resp <? 600)%Z)%bool
      with true by (symmetry; apply andb_true_intro; split; lia).
    reflexivity.
  - intros data H Hb.
    replace ((400 <=? status_code resp)%Z && (status_code resp <? 600)%Z)%bool
      with false
      by (symmetry; apply andb_false_iff;
          destruct (Z.leb_spec 400 (status_code resp)); [right|left];
          [apply Z.ltb_ge; lia | reflexivity]).
    rewrite Hb. cbn [fst]. split; [reflexivity|]. split.
    + apply length_map.
    + intros i raw Hi. now rewrite nth_error_map, Hi.
Qed.

Lemma list_locations_apply_witness :
  fst (APIListLocationStrategy.apply unavailable
         (APIListLocationStrategy.new sample_credentials) None
         (__init__ sample_credentials))
  = Raise (HTTPError 503)
  /\ fst (APIListLocationStrategy.apply
            (serving [room_of "Hall" [plug_switch]; room_of "Attic" []])
            (APIListLocationStrategy.new sample_credentials) None
            (__init__ sample_credentials))
     = Ok [new_ZAutomationLocation (room_of "Hall" [plug_switch]);
           new_ZAutomationLocation (room_of "Attic" [])].
Proof.
  split.
  - apply (list_locations_apply unavailable sample_credentials None
             (__init__ sample_credentials)).
    cbn. lia.
  - destruct (list_locations_apply
                (serving [room_of "Hall" [plug_switch]; room_of "Attic" []])
                sample_credentials None (__init__ sample_credentials))
      as (_ & _ & H).
    apply (H [room_of "Hall" [plug_switch]; room_of "Attic" []]).
    + cbn. lia.
    + reflexivity.
Defined.


Lemma is_error_status_false (status : Z) :
  ~ (400 <= status < 600)%Z -> is_error_status status = false.
Proof.
  intros H. unfold is_error_status. apply andb_false_iff.
  destruct (Z.leb_spec 400 status); [right | left; reflexivity].
  apply Z.ltb_ge. lia.
Qed.

Lemma action_apply_device (server : Server) (self : Strategy)
      (d : ZAutomationDevice) (p1 : pyval) (rest : list pyval) (st : State) :
  let command := PyStr.format (server_full_url self) [api_id d; str p1] in
  let req := request_of self command in
  let resp := server (sent st) req in
  let st' := add_sent (add_logged st [(DEBUG, MsgRequested command)]) req in
  APIDeviceActionStrategy.apply server self (Some (PDevice d :: p1 :: rest)) st
  = if is_error_status (status_code resp)
    then (Raise (HTTPError (status_code resp)), st')
    else (Ok PNone, st').
Proof.
  cbv zeta. unfold APIDeviceActionStrategy.apply, is_error_status, request_of.
  unfold_monad. cbn [list_getitem nth_error sent logged credentials _commands].
  set (resp := server (sent st) _).
  destruct ((400 <=? status_code resp)%Z && (status_code resp <? 600)%Z)%bool;
    reflexivity.
Qed.








(** ** Python dictionaries *)

Lemma dict_get_set {V : Type} (d : PyDict.t V) (k k' : string) (v : V) :
  PyDict.get (PyDict.set d k v) k'
  = if String.eqb k' k then Some v else PyDict.get d k'.
Proof.
  induction d as [|[k0 v0] d IH]; cbn.
  - reflexivity.
  - destruct (String.eqb_spec k k0) as [->|Hk]; cbn.
    + destruct (String.eqb k' k0); reflexivity.
    + rewrite IH.
      destruct (String.eqb_spec k' k0) as [->|Hk0]; [|reflexivity].
      destruct (String.eqb_spec k0 k) as [->|_]; [congruence|reflexivity].
Qed.

Lemma dict_keys_set {V : Type} (d : PyDict.t V) (k k' : string) (v : V) :
  In k' (PyDict.keys (PyDict.set d k v)) <-> k' = k \/ In k' (PyDict.keys d).
Proof.
  unfold PyDict.keys. induction d as [|[k0 v0] d IH]; cbn.
  - intuition congruence.
  - destruct (String.eqb_spec k k0) as [->|Hk]; cbn.
    + intuition congruence.
    + rewrite IH. intuition congruence.
Qed.

Lemma dict_get_keys {V : Type} (d : PyDict.t V) (k : string) :
  In k (PyDict.keys d) <-> PyDict.get d k <> None.
Proof.
  unfold PyDict.keys. induction d as [|[k0 v0] d IH]; cbn.
  - intuition congruence.
  - destruct (String.eqb_spec k k0) as [->|Hk].
    + split; [discriminate | auto].
    + rewrite <- IH. intuition congruence.
Qed.

Lemma apply_writes_app (ws1 ws2 : list (string * Todo)) (d : PyDict.t Todo) :
  apply_writes (ws1 ++ ws2) d = apply_writes ws2 (apply_writes ws1 d).
Proof. apply fold_left_app. Qed.


Lemma get_apply_writes_none (ws : list (string * Todo)) (d : PyDict.t Todo)
      (k : string) :
  (forall v, ~ In (k, v) ws) ->
  PyDict.get (apply_writes ws d) k = PyDict.get d k.
Proof.
  induction ws as [|[k' v'] ws IH] using rev_ind; intros Hall.
  - reflexivity.
  - rewrite apply_writes_app. cbn. rewrite dict_get_set.
    destruct (String.eqb_spec k k') as [->|Hk].
    + elim (Hall v'). apply in_or_app. right. now left.
    + apply IH. intros v Hv. apply (Hall v), in_or_app. now left.
Qed.

(** ** The loops of [__init_commands__] *)

Lemma performs_ret : performs (ret tt) [].
Proof.
  intros st d Hd. unfold ret. destruct st as [c cmds s l].
  cbn in *. subst cmds. now rewrite app_nil_r.
Qed.

Lemma performs_bind (m1 m2 : M unit) (ws1 ws2 : list (string * Todo)) :
  performs m1 ws1 -> performs m2 ws2 -> performs (m1 ;; m2) (ws1 ++ ws2).
Proof.
  intros H1 H2 st d Hd. unfold bind.
  rewrite (H1 st d Hd).
  rewrite (H2 {| credentials := credentials st;
                 _commands := Some (apply_writes ws1 d);
                 sent := sent st;
                 logged := logged st ++ log_writes ws1 |}
              (apply_writes ws1 d) eq_refl).
  cbn [credentials sent logged].
  unfold log_writes. rewrite apply_writes_app, map_app, app_assoc.
  reflexivity.
Qed.

Lemma performs_for {A : Type} (xs : list A) (body : A -> M unit)
      (f : A -> list (string * Todo)) :
  (forall x, In x xs -> performs (body x) (f x)) ->
  performs (for_ xs body) (flat_map f xs).
Proof.
  induction xs as [|x xs IH]; intros H; cbn [for_ flat_map].
  - apply performs_ret.
  - apply performs_bind.
    + apply H. now left.
    + apply IH. intros y Hy. apply H. now right.
Qed.

Lemma performs_write (k : string) (v : Todo) :
  performs (log DEBUG (MsgNewCommand k) ;; commands_setitem k v) [(k, v)].
Proof.
  intros st d Hd. unfold_monad. cbn. rewrite Hd. reflexivity.
Qed.

Lemma flat_map_singleton {A B : Type} (f : A -> B) (xs : list A) :
  flat_map (fun x => [f x]) xs = map f xs.
Proof. induction xs as [|x xs IH]; cbn; [|rewrite IH]; reflexivity. Qed.

Lemma performs_room (action_strategy : Strategy) (idx : nat)
      (ac ac_voc : list string) (voc action : string)
      (action_map : PyDict.t (list ZAutomationDevice)) (room : string) :
  nth_error ac_voc idx = Some voc ->
  nth_error ac idx = Some action ->
  In room (PyDict.keys action_map) ->
  performs
    (devices <- lift (getitem action_map room) ;;
     for_ devices (fun device =>
       voc <- lift (list_getitem ac_voc idx) ;;
       let command :=
         PyStr.lower
           (PyStr.format "{!s} {!s} {!s} in {!s}"
                         [BASE_ORDER; voc; device_name device; room]) in
       log DEBUG (MsgNewCommand command) ;;
       action <- lift (list_getitem ac idx) ;;
       commands_setitem command (action_strategy, device, action)))
    (room_writes action_strategy voc action action_map room).
Proof.
  intros Hvoc Hac Hroom.
  apply dict_get_keys in Hroom.
  unfold room_writes, lookup_or_nil, getitem, list_getitem.
  rewrite Hvoc, Hac.
  destruct (PyDict.get action_map room) as [devices|]; [|congruence].
  intros st d Hd. unfold bind at 1. unfold lift at 1.
  rewrite <- flat_map_singleton.
  refine (performs_for devices _ _ _ st d Hd).
  intros device _ st' d' Hd'.
  rewrite <- (performs_write _ _ st' d' Hd').
  reflexivity.
Qed.

Lemma performs_action (action_strategy : Strategy) (idx : nat)
      (ac ac_voc : list string) (voc action : string)
      (action_map : PyDict.t (list ZAutomationDevice)) :
  nth_error ac_voc idx = Some voc ->
  nth_error ac idx = Some action ->
  performs
    (for_ (PyDict.keys action_map) (fun room =>
       devices <- lift (getitem action_map room) ;;
       for_ devices (fun device =>
         voc <- lift (list_getitem ac_voc idx) ;;
         let command :=
           PyStr.lower
             (PyStr.format "{!s} {!s} {!s} in {!s}"
                           [BASE_ORDER; voc; device_name device; room]) in
         log DEBUG (MsgNewCommand command) ;;
         action <- lift (list_getitem ac idx) ;;
         commands_setitem command (action_strategy, device, action))))
    (action_writes action_strategy action_map (voc, action)).
Proof.
  intros Hvoc Hac. unfold action_writes.
  apply performs_for. intros room Hroom.
  now apply performs_room.
Qed.

Lemma init_commands_run (server : Server) (st : State) :
  let resp := server (sent st) (listing_request (credentials st)) in
  __init_commands__ server st
  = if is_error_status (status_code resp)
    then (Raise (HTTPError (status_code resp)), listing_started st)
    else match body resp with
         | NotJson => (Raise ValueError, listing_started st)
         | JsonObject None => (Raise (KeyError "data"), listing_started st)
         | JsonObject (Some data) => (Ok tt, commands_built st data)
         end.
Proof.
  cbv zeta. unfold __init_commands__.
  unfold bind at 1. unfold set_commands at 1.
  unfold bind at 1. unfold get_credentials at 1. cbn [credentials].
  unfold bind at 1. rewrite list_apply_run. cbv zeta.
  cbn [sent credentials].
  fold (listing_request (credentials st)).
  destruct (is_error_status _); [reflexivity|].
  destruct (body _) as [|[data|]]; try reflexivity.
  set (rooms := map new_ZAutomationLocation data).
  set (strategy := APIDeviceActionStrategy.new (credentials st)).
  cbn [seq length for_].
  match goal with
  | |- ?m ?s = _ =>
      assert (H : performs m (command_writes strategy
                                             (collect_action_map rooms)))
  end.
  { unfold command_writes, vocabulary. cbn [flat_map].
    repeat apply performs_bind.
    - now apply performs_action.
    - now apply performs_action.
    - now apply performs_action.
    - apply performs_ret. }
  match goal with
  | |- ?m ?s = _ => rewrite (H s PyDict.empty eq_refl)
  end.
  reflexivity.
Qed.

(** ** The public methods *)

Lemma do_vocal_commands_unfold (server : Server) (order : pyval) (st : State) :
  do_vocal_commands server order st
  = match _commands st with
    | Some _ => dispatch server order st
    | None =>
        match __init_commands__ server st with
        | (Ok _, st') => dispatch server order st'
        | (Raise e, st') => (Raise e, st')
        end
    end.
Proof.
  unfold do_vocal_commands, dispatch.
  unfold bind at 1. unfold get_commands at 1.
  unfold bind at 1.
  destruct (_commands st); [reflexivity|].
  destruct (__init_commands__ server st) as [[[]|e] st']; reflexivity.
Qed.

Lemma get_vocal_commands_unfold (server : Server) (st : State) :
  get_vocal_commands server st
  = match _commands st with
    | Some d => (Ok (PyDict.keys d), st)
    | None =>
        match __init_commands__ server st with
        | (Ok _, st') =>
            match _commands st' with
            | Some d => (Ok (PyDict.keys d), st')
            | None => (Raise TypeError, st')
            end
        | (Raise e, st') => (Raise e, st')
        end
    end.
Proof.
  unfold get_vocal_commands.
  unfold bind at 1. unfold get_commands at 1.
  unfold bind at 1.
  destruct (_commands st) as [d|] eqn:Hd.
  - unfold ret at 1. unfold bind, get_commands. rewrite Hd. reflexivity.
  - destruct (__init_commands__ server st) as [[[]|e] st']; [|reflexivity].
    unfold bind, get_commands. destruct (_commands st'); reflexivity.
Qed.

Lemma dispatch_not_str (server : Server) (order : pyval) (st : State) :
  (forall s, order <> PStr s) ->
  dispatch server order st = (Raise TypeError, st).
Proof.
  intros H. unfold dispatch, bind, lift.
  destruct order as [| b | s | d]; try reflexivity.
  now elim (H s).
Qed.

Lemma dispatch_built (server : Server) (s : string) (st : State)
      (d : PyDict.t Todo) :
  _commands st = Some d ->
  dispatch server (PStr s) st
  = match PyDict.get d (clean_command_str s) with
    | None =>
        (Ok false,
         add_logged st [(ERROR, MsgUnknown (KeyError (clean_command_str s)))])
    | Some todo =>
        let status :=
          status_code (server (sent st) (action_request todo)) in
        if is_error_status status
        then (Raise (HTTPError status), action_sent st todo)
        else (Ok true, action_sent st todo)
    end.
Proof.
  intros Hd. unfold dispatch.
  unfold bind at 1. unfold lift at 1. cbn [clean_command].
  unfold try_except_KeyError.
  unfold bind at 1. unfold commands_getitem.
  unfold bind at 1. unfold get_commands at 1. rewrite Hd.
  unfold lift, getitem.
  destruct (PyDict.get d (clean_command_str s)) as [[[todo0 todo1] todo2]|].
  - unfold bind at 1. rewrite action_apply_device. cbv zeta.
    unfold action_sent, action_request, action_command. cbn [fst snd str].
    destruct (is_error_status _); reflexivity.
  - reflexivity.
Qed.





(** ** The table is built once *)

Lemma filter_is_listing_log_writes (ws : list (string * Todo)) :
  filter is_listing (log_writes ws) = [].
Proof. induction ws as [|kv ws IH]; [reflexivity | exact IH]. Qed.

Lemma listing_calls_started (st : State) :
  listing_calls (listing_started st) = S (listing_calls st).
Proof.
  unfold listing_calls, listing_started. cbn [logged].
  rewrite filter_app, length_app. cbn. lia.
Qed.

Lemma listing_calls_built (st : State) (data : list RawLocation) :
  listing_calls (commands_built st data) = S (listing_calls st).
Proof.
  rewrite <- listing_calls_started.
  unfold listing_calls, commands_built. cbn [logged].
  rewrite filter_app, filter_is_listing_log_writes, app_nil_r.
  reflexivity.
Qed.




Lemma init_commands_assigns (server : Server) (st : State) :
  exists d,
    _commands (snd (__init_commands__ server st)) = Some d
    /\ listing_calls (snd (__init_commands__ server st))
       = S (listing_calls st).
Proof.
  rewrite init_commands_run. cbv zeta.
  destruct (is_error_status _).
  - eexists. split; [reflexivity | apply listing_calls_started].
  - destruct (body _) as [|[data|]]; eexists;
      (split; [reflexivity|]);
      first [apply listing_calls_started | apply listing_calls_built].
Qed.




(** ** The phrases *)

Lemma lower_app (a b : string) :
  PyStr.lower (a ++ b) = (PyStr.lower a ++ PyStr.lower b)%string.
Proof.
  induction a as [|c a IH]; cbn; [|rewrite IH]; reflexivity.
Qed.

Lemma append_nil_r (a : string) : (a ++ EmptyString)%string = a.
Proof. induction a as [|c a IH]; cbn; [|rewrite IH]; reflexivity. Qed.

Lemma append_inv_head (a b c : string) :
  (a ++ b)%string = (a ++ c)%string -> b = c.
Proof.
  induction a as [|x a IH]; cbn; intros H; [exact H|].
  injection H as H. auto.
Qed.


(** ** The rooms' devices by room name *)

Lemma switches_copy (devices : list ZAutomationDevice) :
  fold_left (fun switches switch => switches ++ [switch]) devices [] = devices.
Proof.
  rewrite (fold_left_append_map (fun x => x)). cbn. apply map_id.
Qed.

Lemma collect_step (rooms : list ZAutomationLocation)
      (d : PyDict.t (list ZAutomationDevice)) (room : ZAutomationLocation) :
  fold_left
    (fun action_map room =>
       PyDict.set action_map (location_name room)
         (fold_left (fun switches switch => switches ++ [switch])
                    (fst (switches room)) []))
    (room :: rooms) d
  = fold_left
      (fun action_map room =>
         PyDict.set action_map (location_name room)
           (fold_left (fun switches switch => switches ++ [switch])
                      (fst (switches room)) []))
      rooms (PyDict.set d (location_name room) (fst (switches room))).
Proof. cbn [fold_left]. now rewrite switches_copy. Qed.


Lemma collect_get_origin (rooms : list ZAutomationLocation)
      (d : PyDict.t (list ZAutomationDevice)) (k : string)
      (l : list ZAutomationDevice) :
  PyDict.get
    (fold_left
       (fun action_map room =>
          PyDict.set action_map (location_name room)
            (fold_left (fun switches switch => switches ++ [switch])
                       (fst (switches room)) []))
       rooms d) k
  = Some l ->
  PyDict.get d k = Some l
  \/ exists r, In r rooms /\ location_name r = k /\ l = fst (switches r).
Proof.
  revert d. induction rooms as [|r rooms IH]; intros d H; [now left|].
  rewrite collect_step in H. apply IH in H.
  destruct H as [H | (r' & Hin & Hn & Hl)].
  - rewrite dict_get_set in H.
    destruct (String.eqb_spec k (location_name r)) as [->|_].
    + right. exists r. injection H as <-. repeat split. now left.
    + now left.
  - right. exists r'. repeat split; auto. now right.
Qed.


Lemma collect_action_map_origin (rooms : list ZAutomationLocation)
      (k : string) (l : list ZAutomationDevice) :
  PyDict.get (collect_action_map rooms) k = Some l ->
  exists r, In r rooms /\ location_name r = k /\ l = fst (switches r).
Proof.
  intros H. apply collect_get_origin in H.
  destruct H as [H|H]; [discriminate H | exact H].
Qed.

Lemma in_command_writes (action_strategy : Strategy)
      (action_map : PyDict.t (list ZAutomationDevice))
      (k : string) (v : Todo) :
  In (k, v) (command_writes action_strategy action_map) <->
  exists voc action room devices device,
    In (voc, action) vocabulary
    /\ PyDict.get action_map room = Some devices
    /\ In device devices
    /\ k = command_phrase voc (device_name device) room
    /\ v = (action_strategy, device, action).
Proof.
  unfold command_writes, action_writes, room_writes, lookup_or_nil.
  rewrite in_flat_map. split.
  - intros ([voc action] & Hva & H).
    apply in_flat_map in H. destruct H as (room & Hroom & H).
    apply in_map_iff in H. destruct H as (device & Heq & Hdev).
    cbn [fst snd] in *.
    destruct (PyDict.get action_map room) as [devices|] eqn:Hget;
      [|destruct Hdev].
    injection Heq as <- <-.
    exists voc, action, room, devices, device. auto.
  - intros (voc & action & room & devices & device & Hva & Hget & Hdev
            & -> & ->).
    exists (voc, action). split; [exact Hva|].
    apply in_flat_map. exists room. split.
    + apply dict_get_keys. congruence.
    + apply in_map_iff. exists device. cbn [fst snd].
      rewrite Hget. auto.
Qed.


(** ** The entries of the table *)






(** ** The living-room scenario *)




(** * Further properties of the helper *)

(** ** Quoted phrases *)

Lemma last_app_char (s : string) (c : ascii) :
  PyStr.last (s ++ String c EmptyString) = String c EmptyString.
Proof.
  induction s as [|x s IH]; [reflexivity|].
  cbn [String.append]. destruct s as [|y s]; exact IH.
Qed.

Lemma init_app_char (s : string) (c : ascii) :
  PyStr.init (s ++ String c EmptyString) = s.
Proof.
  induction s as [|x s IH]; [reflexivity|].
  cbn [String.append]. destruct s as [|y s].
  - reflexivity.
  - cbn [String.append PyStr.init] in *. now rewrite IH.
Qed.

Lemma clean_command_str_requoted (s : string) :
  clean_command_str ("'" ++ s ++ "'") = s.
Proof.
  rewrite clean_command_str_eq.
  change ("'" ++ s ++ "'")%string
    with (String "'"%char (s ++ String "'"%char EmptyString)).
  cbn [PyStr.head PyStr.tail].
  replace (PyStr.last (String "'"%char (s ++ String "'"%char EmptyString)))
    with quote.
  - cbn. apply init_app_char.
  - change (String "'"%char (s ++ String "'"%char EmptyString))
      with ((String "'"%char s) ++ String "'"%char EmptyString)%string.
    now rewrite last_app_char.
Qed.

(** X1: a string put between two single quotes is given back by
    [clean_command], whatever the string holds, quotes included. *)
Theorem clean_command_quoted_round_trip (s : string) :
  clean_command (PStr ("'" ++ s ++ "'")) = Ok s.
Proof.
  cbn [clean_command]. f_equal. apply clean_command_str_requoted.
Qed.

Lemma dispatch_clean (server : Server) (a b : string) :
  clean_command_str a = clean_command_str b ->
  dispatch server (PStr a) = dispatch server (PStr b).
Proof. intros H. unfold dispatch, clean_command. now rewrite H. Qed.

(** X2: [do_vocal_commands] sees a phrase only through [clean_command]: a
    phrase that is not itself between single quotes is dispatched the same
    way bare and between single quotes, with the same result and the same
    effects, whatever the state of the table. *)
Theorem do_vocal_commands_quoted_alike (server : Server) (st : State)
        (phrase : string) :
  ~ (String.get 0 phrase = Some "'"%char
     /\ String.get (String.length phrase - 1) phrase = Some "'"%char) ->
  do_vocal_commands server (PStr ("'" ++ phrase ++ "'")) st
  = do_vocal_commands server (PStr phrase) st.
Proof.
  intros H. rewrite !do_vocal_commands_unfold.
  rewrite (dispatch_clean server ("'" ++ phrase ++ "'") phrase)
    by (rewrite (clean_command_str_unquoted phrase H);
        apply clean_command_str_requoted).
  reflexivity.
Qed.

Lemma do_vocal_commands_quoted_alike_witness :
  do_vocal_commands (serving [room_of "Hall" [lamp]])
    (PStr "'wave on lamp in hall'") (__init__ sample_credentials)
  = do_vocal_commands (serving [room_of "Hall" [lamp]])
      (PStr "wave on lamp in hall") (__init__ sample_credentials).
Proof.
  apply (do_vocal_commands_quoted_alike (serving [room_of "Hall" [lamp]])
           (__init__ sample_credentials) "wave on lamp in hall").
  cbn. intros [H _]. discriminate H.
Defined.

(** ** Dispatching on a built table *)



(** ** A build that fails *)

Lemma init_commands_failed (server : Server) (st : State) (e : exn) :
  fst (__init_commands__ server st) = Raise e ->
  __init_commands__ server st = (Raise e, listing_started st).
Proof.
  rewrite init_commands_run. cbv zeta.
  destruct (is_error_status _).
  - cbn [fst]. intros H. injection H as <-. reflexivity.
  - destruct (body _) as [|[data|]]; cbn [fst]; intros H;
      try discriminate H; injection H as <-; reflexivity.
Qed.

(** X4: on an unbuilt table, what the listing raises leaves both public
    methods: the HTTP error for a status in 400..599, [ValueError] for a
    body that is not JSON, and [KeyError] for a body without [data]; that
    [KeyError] is raised outside the [try] of [do_vocal_commands], which
    therefore does not turn it into [False].  In each case the one listing
    request has been sent. *)
Theorem build_errors_propagate (server : Server) (st : State) (order : pyval) :
  _commands st = None ->
  let resp := server (sent st) (listing_request (credentials st)) in
  let expected :=
    if ((400 <=? status_code resp)%Z && (status_code resp <? 600)%Z)%bool
    then Some (HTTPError (status_code resp))
    else match body resp with
         | NotJson => Some ValueError
         | JsonObject None => Some (KeyError "data")
         | JsonObject (Some _) => None
         end in
  forall e, expected = Some e ->
    fst (do_vocal_commands server order st) = Raise e
    /\ fst (get_vocal_commands server st) = Raise e
    /\ sent (snd (do_vocal_commands server order st))
       = sent st ++ [listing_request (credentials st)]
    /\ sent (snd (get_vocal_commands server st))
       = sent st ++ [listing_request (credentials st)].
Proof.
  intros Hn. cbv zeta. intros e He.
  rewrite do_vocal_commands_unfold, get_vocal_commands_unfold, Hn.
  rewrite init_commands_run. cbv zeta. unfold is_error_status.
  destruct (_ && _)%bool.
  - injection He as <-. repeat split.
  - destruct (body _) as [|[data|]]; try discriminate He;
      injection He as <-; repeat split.
Qed.

Lemma build_errors_propagate_witness :
  fst (do_vocal_commands
         (fun _ _ => {| status_code := 200; body := JsonObject None |})
         (PStr "wave on lamp in hall") (__init__ sample_credentials))
  = Raise (KeyError "data")
  /\ fst (get_vocal_commands unavailable (__init__ sample_credentials))
     = Raise (HTTPError 503).
Proof.
  split.
  - apply (build_errors_propagate
             (fun _ _ => {| status_code := 200; body := JsonObject None |})
             (__init__ sample_credentials) (PStr "wave on lamp in hall")
             eq_refl (KeyError "data") eq_refl).
  - apply (build_errors_propagate unavailable
             (__init__ sample_credentials) PNone
             eq_refl (HTTPError 503) eq_refl).
Defined.

Lemma run_call_empty (server : Server) (st : State) (c : Call) :
  _commands st = Some PyDict.empty ->
  _commands (run_call server st c) = Some PyDict.empty
  /\ sent (run_call server st c) = sent st.
Proof.
  intros Hd. destruct c as [|order]; cbn [run_call].
  - rewrite get_vocal_commands_unfold, Hd. now split.
  - rewrite do_vocal_commands_unfold, Hd.
    destruct order as [| b | s | dev];
      try (rewrite dispatch_not_str by discriminate; now split).
    rewrite (dispatch_built _ _ _ _ Hd). cbn. now split.
Qed.

Lemma run_calls_empty (server : Server) (cs : list Call) (st : State) :
  _commands st = Some PyDict.empty ->
  _commands (run_calls server st cs) = Some PyDict.empty
  /\ sent (run_calls server st cs) = sent st.
Proof.
  revert st. induction cs as [|c cs IH]; intros st Hd.
  - now split.
  - change (run_calls server st (c :: cs))
      with (run_calls server (run_call server st c) cs).
    destruct (run_call_empty server st c Hd) as [Hc Hs].
    destruct (IH _ Hc) as [Hc' Hs']. split; congruence.
Qed.

Lemma run_call_failed_build (server : Server) (st : State) (c : Call)
      (e : exn) :
  _commands st = None ->
  fst (__init_commands__ server st) = Raise e ->
  run_call server st c = listing_started st.
Proof.
  intros Hn He. apply init_commands_failed in He.
  destruct c as [|order]; cbn [run_call].
  - now rewrite get_vocal_commands_unfold, Hn, He.
  - now rewrite do_vocal_commands_unfold, Hn, He.
Qed.

(** X5: a build that raises has already assigned the empty table, so it is
    never tried again: after the failed first call and any further calls,
    the table is still empty and the failed listing request is still the
    only request sent; [get_vocal_commands] then returns no phrase and
    [do_vocal_commands] returns [False] for every phrase, whatever the
    server would answer by then. *)
Theorem failed_build_sticks (server : Server) (st : State) (e : exn)
        (first : Call) (later : list Call) :
  _commands st = None ->
  fst (__init_commands__ server st) = Raise e ->
  let stn := run_calls server (run_call server st first) later in
  _commands stn = Some PyDict.empty
  /\ sent stn = sent st ++ [listing_request (credentials st)]
  /\ fst (get_vocal_commands server stn) = Ok []
  /\ (forall phrase : string,
         fst (do_vocal_commands server (PStr phrase) stn) = Ok false).
Proof.
  intros Hn He. cbv zeta.
  rewrite (run_call_failed_build server st first e Hn He).
  destruct (run_calls_empty server later (listing_started st) eq_refl)
    as [Hc Hs].
  split; [exact Hc|]. split; [exact Hs|]. split.
  - now rewrite get_vocal_commands_unfold, Hc.
  - intros phrase.
    now rewrite do_vocal_commands_unfold, Hc, (dispatch_built _ _ _ _ Hc).
Qed.

(** A server that fails its first request and then lists a lamp. *)
Lemma failed_build_sticks_witness :
  let server : Server :=
    fun seen req =>
      match seen with
      | [] => {| status_code := 500; body := NotJson |}
      | _ => serving [room_of "Hall" [lamp]] seen req
      end in
  let stn :=
    run_calls server
      (run_call server (__init__ sample_credentials) GetVocalCommands)
      [GetVocalCommands] in
  _commands stn = Some PyDict.empty
  /\ sent stn = [listing_request sample_credentials]
  /\ fst (get_vocal_commands server stn) = Ok []
  /\ (forall phrase : string,
         fst (do_vocal_commands server (PStr phrase) stn) = Ok false).
Proof.
  apply (failed_build_sticks
           (fun seen req =>
              match seen with
              | [] => {| status_code := 500; body := NotJson |}
              | _ => serving [room_of "Hall" [lamp]] seen req
              end)
           (__init__ sample_credentials) (HTTPError 500)
           GetVocalCommands [GetVocalCommands] eq_refl eq_refl).
Defined.

(** ** Where the entries of the table come from *)

Lemma get_apply_writes_in (ws : list (string * Todo)) (d : PyDict.t Todo)
      (k : string) (v : Todo) :
  PyDict.get (apply_writes ws d) k = Some v ->
  In (k, v) ws \/ PyDict.get d k = Some v.
Proof.
  induction ws as [|[k' v'] ws IH] using rev_ind; intros H.
  - now right.
  - rewrite apply_writes_app in H. cbn in H. rewrite dict_get_set in H.
    destruct (String.eqb_spec k k') as [->|Hk].
    + injection H as <-. left. apply in_or_app. right. now left.
    + destruct (IH H) as [Hin|Hd]; [left | now right].
      apply in_or_app. now left.
Qed.

Lemma collect_get_last_origin (rooms : list ZAutomationLocation)
      (d : PyDict.t (list ZAutomationDevice)) (k : string)
      (l : list ZAutomationDevice) :
  PyDict.get
    (fold_left
       (fun action_map room =>
          PyDict.set action_map (location_name room)
            (fold_left (fun switches switch => switches ++ [switch])
                       (fst (switches room)) []))
       rooms d) k
  = Some l ->
  (PyDict.get d k = Some l /\ forall r, In r rooms -> location_name r <> k)
  \/ exists pre r post,
      rooms = pre ++ r :: post
      /\ location_name r = k
      /\ l = fst (switches r)
      /\ forall r', In r' post -> location_name r' <> k.
Proof.
  revert d. induction rooms as [|r0 rooms IH]; intros d H.
  - left. split; [exact H | intros r []].
  - rewrite collect_step in H. apply IH in H.
    destruct H as [[H Hall] | (pre & r & post & -> & Hn & Hl & Hpost)].
    + rewrite dict_get_set in H.
      destruct (String.eqb_spec k (location_name r0)) as [->|Hk].
      * right. exists [], r0, rooms. injection H as <-. repeat split.
        exact Hall.
      * left. split; [exact H|]. intros r [<-|Hr]; [congruence | now apply Hall].
    + right. exists (r0 :: pre), r, post. repeat split; assumption.
Qed.

Lemma build_commands_origin (creds : Credentials)
      (rooms : list ZAutomationLocation) (k : string) (v : Todo) :
  PyDict.get (build_commands creds rooms) k = Some v ->
  exists voc action pre room post device,
    In (voc, action) vocabulary
    /\ rooms = pre ++ room :: post
    /\ (forall r, In r post -> location_name r <> location_name room)
    /\ In device (fst (switches room))
    /\ k = command_phrase voc (device_name device) (location_name room)
    /\ v = (APIDeviceActionStrategy.new creds, device, action).
Proof.
  intros H. unfold build_commands in H.
  apply get_apply_writes_in in H. destruct H as [H|H]; [|discriminate H].
  apply in_command_writes in H.
  destruct H as (voc & action & room & devices & device & Hva & Hget & Hdev
                 & -> & ->).
  apply collect_get_last_origin in Hget.
  destruct Hget as [[Hget _] | (pre & r & post & Hrooms & <- & -> & Hpost)];
    [discriminate Hget|].
  exists voc, action, pre, r, post, device. repeat split; assumption.
Qed.



(** ** Invariants of a helper in use *)

Lemma lower_char_idem (c : ascii) :
  PyStr.lower_char (PyStr.lower_char c) = PyStr.lower_char c.
Proof.
  destruct c as [[] [] [] [] [] [] [] []]; reflexivity.
Qed.

Lemma lower_idem (s : string) : PyStr.lower (PyStr.lower s) = PyStr.lower s.
Proof.
  induction s as [|c s IH]; cbn [PyStr.lower]; [reflexivity|].
  now rewrite lower_char_idem, IH.
Qed.

Lemma dict_set_nodup {V : Type} (d : PyDict.t V) (k : string) (v : V) :
  NoDup (PyDict.keys d) -> NoDup (PyDict.keys (PyDict.set d k v)).
Proof.
  induction d as [|[k0 v0] d IH]; cbn; intros H.
  - constructor; [intros [] | constructor].
  - inversion H as [|? ? Hnotin Hnodup]; subst.
    destruct (String.eqb_spec k k0) as [->|Hk]; cbn.
    + exact H.
    + constructor; [|now apply IH].
      intros Hin. apply (dict_keys_set d k k0 v) in Hin.
      destruct Hin as [->|Hin]; [congruence | contradiction].
Qed.

Lemma apply_writes_nodup (ws : list (string * Todo)) (d : PyDict.t Todo) :
  NoDup (PyDict.keys d) -> NoDup (PyDict.keys (apply_writes ws d)).
Proof.
  revert d. induction ws as [|[k v] ws IH]; intros d H; [exact H|].
  cbn. apply IH. now apply dict_set_nodup.
Qed.

Lemma build_commands_ok (creds : Credentials)
      (rooms : list ZAutomationLocation) :
  table_ok creds (build_commands creds rooms).
Proof.
  split.
  - apply apply_writes_nodup. constructor.
  - intros k v H. apply build_commands_origin in H.
    destruct H as (voc & action & pre & room & post & device & Hva & _ & _
                   & _ & -> & ->).
    cbn [fst snd]. split; [apply lower_idem|]. split; [reflexivity|].
    destruct Hva as [H|[H|[H|[]]]]; injection H as <- <-; auto.
Qed.

Lemma empty_table_ok (creds : Credentials) : table_ok creds PyDict.empty.
Proof. split; [constructor | intros k v H; discriminate H]. Qed.

Lemma init_commands_effect (server : Server) (st : State) :
  let st' := snd (__init_commands__ server st) in
  credentials st' = credentials st
  /\ sent st' = sent st ++ [listing_request (credentials st)]
  /\ exists d, _commands st' = Some d /\ table_ok (credentials st) d.
Proof.
  cbv zeta. rewrite init_commands_run. cbv zeta.
  destruct (is_error_status _).
  - repeat split. eexists. split; [reflexivity | apply empty_table_ok].
  - destruct (body _) as [|[data|]]; repeat split; eexists;
      (split; [reflexivity|]);
      first [apply empty_table_ok | apply build_commands_ok].
Qed.

Lemma dispatch_effect (server : Server) (order : pyval) (st : State)
      (d : PyDict.t Todo) :
  _commands st = Some d ->
  let st' := snd (dispatch server order st) in
  credentials st' = credentials st
  /\ _commands st' = Some d
  /\ (sent st' = sent st
      \/ exists k todo,
          PyDict.get d k = Some todo
          /\ sent st' = sent st ++ [action_request todo]).
Proof.
  intros Hd. cbv zeta.
  destruct order as [| b | s | dev];
    try (rewrite dispatch_not_str by discriminate; repeat split; auto).
  rewrite (dispatch_built _ _ _ _ Hd).
  destruct (PyDict.get d (clean_command_str s)) as [todo|] eqn:Hget.
  - cbv zeta. destruct (is_error_status _); cbn [snd];
      (split; [reflexivity|]); (split; [exact Hd|]);
      right; exists (clean_command_str s), todo; split; auto.
  - cbn [snd]. repeat split; auto.
Qed.

Lemma dispatch_ok (server : Server) (order : pyval) (st : State)
      (creds : Credentials) (d : PyDict.t Todo) :
  _commands st = Some d ->
  helper_ok creds st ->
  helper_ok creds (snd (dispatch server order st)).
Proof.
  intros Hd (Hc & Ht & Hs).
  destruct (dispatch_effect server order st d Hd) as (Hc' & Hd' & Hsent).
  split; [congruence|]. split.
  - intros d' Hd''. rewrite Hd' in Hd''. injection Hd'' as <-. now apply Ht.
  - destruct Hsent as [-> | (k & todo & Hget & ->)]; [exact Hs|].
    apply Forall_app. split; [exact Hs|]. constructor; [|constructor].
    destruct (Ht d Hd) as [_ Hall].
    destruct (Hall k todo Hget) as (_ & Hstrat & Hact).
    destruct todo as [[strategy device] action]. cbn [fst snd] in *.
    subst strategy. right. exists device, action. auto.
Qed.

Lemma init_commands_ok (server : Server) (st : State) (creds : Credentials) :
  helper_ok creds st ->
  helper_ok creds (snd (__init_commands__ server st)).
Proof.
  intros (Hc & Ht & Hs).
  destruct (init_commands_effect server st) as (Hc' & Hsent & d & Hd & Hok).
  split; [congruence|]. split.
  - intros d' Hd'. rewrite Hd in Hd'. injection Hd' as <-. now rewrite <- Hc.
  - rewrite Hsent. apply Forall_app. split; [exact Hs|].
    constructor; [|constructor]. left. now rewrite Hc.
Qed.

Lemma run_call_ok (server : Server) (st : State) (c : Call)
      (creds : Credentials) :
  helper_ok creds st -> helper_ok creds (run_call server st c).
Proof.
  intros H. destruct c as [|order]; cbn [run_call].
  - rewrite get_vocal_commands_unfold.
    destruct (_commands st) as [d|] eqn:Hd; [exact H|].
    pose proof (init_commands_ok server st creds H) as H'.
    destruct (__init_commands__ server st) as [[[]|e] st']; cbn [snd] in *.
    + destruct (_commands st'); exact H'.
    + exact H'.
  - rewrite do_vocal_commands_unfold.
    destruct (_commands st) as [d|] eqn:Hd; [now apply (dispatch_ok _ _ _ _ d)|].
    pose proof (init_commands_ok server st creds H) as H'.
    destruct (init_commands_effect server st) as (_ & _ & d & Hd' & _).
    destruct (__init_commands__ server st) as [[[]|e] st']; cbn [snd] in *.
    + now apply (dispatch_ok _ _ _ _ d).
    + exact H'.
Qed.

Lemma run_calls_ok (server : Server) (cs : list Call) (st : State)
      (creds : Credentials) :
  helper_ok creds st -> helper_ok creds (run_calls server st cs).
Proof.
  revert st. induction cs as [|c cs IH]; intros st H; [exact H|].
  change (run_calls server st (c :: cs))
    with (run_calls server (run_call server st c) cs).
  apply IH. now apply run_call_ok.
Qed.

Lemma fresh_helper_ok (creds : Credentials) : helper_ok creds (__init__ creds).
Proof.
  split; [reflexivity|]. split; [intros d H; discriminate H | constructor].
Qed.

Lemma table_ok_keys_lower (creds : Credentials) (d : PyDict.t Todo)
      (p : string) :
  table_ok creds d -> In p (PyDict.keys d) -> PyStr.lower p = p.
Proof.
  intros [_ H] Hin. apply dict_get_keys in Hin.
  destruct (PyDict.get d p) as [v|] eqn:Hget; [|congruence].
  now destruct (H p v Hget).
Qed.

(** X7: whatever calls a helper has served since [__init__], the phrases
    [get_vocal_commands] returns hold no phrase twice, and each of them is
    its own lower-cased form. *)
Theorem get_vocal_commands_no_repeat (server : Server) (creds : Credentials)
        (calls : list Call) (phrases : list string) :
  fst (get_vocal_commands server (run_calls server (__init__ creds) calls))
  = Ok phrases ->
  NoDup phrases /\ forall p, In p phrases -> PyStr.lower p = p.
Proof.
  pose proof (run_calls_ok server calls _ creds (fresh_helper_ok creds)) as Hok.
  set (st := run_calls server (__init__ creds) calls) in *.
  rewrite get_vocal_commands_unfold.
  destruct (_commands st) as [d|] eqn:Hd.
  - cbn [fst]. intros [= <-]. destruct Hok as (_ & Ht & _).
    specialize (Ht d Hd). split; [apply Ht|].
    intros p. now apply (table_ok_keys_lower creds).
  - pose proof (init_commands_ok server st creds Hok) as (_ & Ht & _).
    destruct (__init_commands__ server st) as [[[]|e] st']; cbn [fst snd] in *;
      [|discriminate].
    destruct (_commands st') as [d|] eqn:Hd'; cbn [fst]; [|discriminate].
    intros [= <-]. specialize (Ht d eq_refl). split; [apply Ht|].
    intros p. now apply (table_ok_keys_lower creds).
Qed.

Lemma get_vocal_commands_no_repeat_witness :
  NoDup [ "wave on lamp in hall"; "wave off lamp in hall";
          "wave of lamp in hall" ]
  /\ forall p,
      In p [ "wave on lamp in hall"; "wave off lamp in hall";
             "wave of lamp in hall" ] ->
      PyStr.lower p = p.
Proof.
  apply (get_vocal_commands_no_repeat
           (serving [room_of "Hall" [lamp; second_lamp]]) sample_credentials
           [DoVocalCommands (PStr "wave on lamp in hall")]).
  vm_compute. reflexivity.
Defined.

(** X8: the table is looked up with the phrase as it is, and its keys are
    lower-cased: whatever calls a helper has served since [__init__], a
    phrase whose cleaned form holds an upper-case letter never makes
    [do_vocal_commands] return [True], and on a built table it returns
    [False] without sending a request. *)
Theorem do_vocal_commands_case_sensitive (server : Server)
        (creds : Credentials) (calls : list Call) (phrase : string) :
  PyStr.lower (clean_command_str phrase) <> clean_command_str phrase ->
  let st := run_calls server (__init__ creds) calls in
  let run := do_vocal_commands server (PStr phrase) st in
  fst run <> Ok true
  /\ (forall d, _commands st = Some d ->
                fst run = Ok false /\ sent (snd run) = sent st).
Proof.
  intros Hup. cbv zeta.
  pose proof (run_calls_ok server calls _ creds (fresh_helper_ok creds)) as Hok.
  set (st := run_calls server (__init__ creds) calls) in *.
  assert (Hmiss : forall st' d,
             helper_ok creds st' -> _commands st' = Some d ->
             dispatch server (PStr phrase) st'
             = (Ok false,
                add_logged st'
                  [(ERROR, MsgUnknown (KeyError (clean_command_str phrase)))])).
  { intros st' d (_ & Ht & _) Hd. rewrite (dispatch_built _ _ _ _ Hd).
    destruct (PyDict.get d (clean_command_str phrase)) as [v|] eqn:Hget;
      [|reflexivity].
    destruct (Ht d Hd) as [_ Hall].
    destruct (Hall _ _ Hget) as (Hlow & _). contradiction. }
  rewrite do_vocal_commands_unfold.
  destruct (_commands st) as [d|] eqn:Hd.
  - rewrite (Hmiss st d Hok Hd). split; [discriminate|].
    intros d' _. now split.
  - split; [|intros d' H; discriminate H].
    pose proof (init_commands_ok server st creds Hok) as Hok'.
    destruct (init_commands_effect server st) as (_ & _ & d & Hd' & _).
    destruct (__init_commands__ server st) as [[[]|e] st']; cbn [snd] in *;
      [|discriminate].
    rewrite (Hmiss st' d Hok' Hd'). discriminate.
Qed.

Lemma do_vocal_commands_case_sensitive_witness :
  let st :=
    run_calls (serving [room_of "Hall" [lamp]]) (__init__ sample_credentials)
      [GetVocalCommands] in
  let run :=
    do_vocal_commands (serving [room_of "Hall" [lamp]])
      (PStr "'Wave on Lamp in Hall'") st in
  fst run <> Ok true
  /\ (forall d, _commands st = Some d ->
                fst run = Ok false /\ sent (snd run) = sent st).
Proof.
  apply (do_vocal_commands_case_sensitive (serving [room_of "Hall" [lamp]])
           sample_credentials [GetVocalCommands] "'Wave on Lamp in Hall'").
  vm_compute. discriminate.
Defined.



(** ** The address of a device command *)

Lemma format_brace_free_prefix (a t : string) (args : list string) :
  brace_free a = true ->
  PyStr.format (a ++ t) args = (a ++ PyStr.format t args)%string.
Proof.
  induction a as [|c a IH]; intros H; [reflexivity|].
  cbn [brace_free] in H.
  apply andb_true_iff in H. destruct H as [H Ha].
  apply andb_true_iff in H. destruct H as [Hopen _].
  cbn [String.append]. rewrite <- (IH Ha).
  destruct c as [[] [] [] [] [] [] [] []];
    try discriminate Hopen; reflexivity.
Qed.

(** X10: when the server URL of the credentials holds no brace, the request
    [apply] sends for a device and an action goes to that URL followed by
    "/ZAutomation/api/v1/devices/", the device's [deviceId], "/command/" and
    the action; the id and the action are put in as they are, braces
    included. *)
Theorem action_request_url (server : Server) (creds : Credentials)
        (d : ZAutomationDevice) (action : string) (st : State) :
  brace_free (server_url creds) = true ->
  sent (snd (APIDeviceActionStrategy.apply server
               (APIDeviceActionStrategy.new creds)
               (Some [PDevice d; PStr action]) st))
  = sent st
    ++ [ {| url := (server_url creds ++ "/ZAutomation/api/v1/devices/"
                    ++ deviceId (device__dict__ d) ++ "/command/" ++ action)%string;
            auth := (username creds, password creds) |} ].
Proof.
  intros H. rewrite action_apply_device. cbv zeta.
  assert (Hurl : PyStr.format
                   (server_full_url (APIDeviceActionStrategy.new creds))
                   [api_id d; str (PStr action)]
                 = (server_url creds ++ "/ZAutomation/api/v1/devices/"
                    ++ deviceId (device__dict__ d) ++ "/command/" ++ action)%string).
  { unfold server_full_url. cbn [_credentials _url APIDeviceActionStrategy.new].
    rewrite (format_brace_free_prefix _ _ _ H). f_equal.
    unfold BASE_URL, APIDeviceActionStrategy.URL, api_id.
    cbn [String.append PyStr.format str].
    now rewrite append_nil_r. }
  rewrite Hurl.
  destruct (is_error_status _); reflexivity.
Qed.

Lemma action_request_url_witness :
  sent (snd (APIDeviceActionStrategy.apply (serving [])
               (APIDeviceActionStrategy.new sample_credentials)
               (Some [PDevice (mkZAutomationDevice
                                 {| deviceId := "{!s}"; deviceName := "Odd" |});
                      PStr "on"])
               (__init__ sample_credentials)))
  = [ {| url := "http://zway:8083/ZAutomation/api/v1/devices/{!s}/command/on";
         auth := ("admin", "secret") |} ].
Proof.
  apply (action_request_url (serving []) sample_credentials
           (mkZAutomationDevice {| deviceId := "{!s}"; deviceName := "Odd" |})
           "on" (__init__ sample_credentials)).
  reflexivity.
Defined.

(** X11: a parameter list too short for what [apply] reads raises
    [IndexError] before anything is logged or sent: the empty list when its
    first element is read, and a list made of one device when the action is
    read.  A list made of one element that is not a device is rejected like
    any other non-device, its missing action never being read. *)
Theorem action_apply_short_list (server : Server) (self : Strategy)
        (st : State) :
  APIDeviceActionStrategy.apply server self (Some []) st
  = (Raise IndexError, st)
  /\ (forall d : ZAutomationDevice,
         APIDeviceActionStrategy.apply server self (Some [PDevice d]) st
         = (Raise IndexError, st))
  /\ APIDeviceActionStrategy.apply server self (Some [PNone]) st
     = (Ok PNone, add_logged st [(ERROR, MsgWrongParam "list")])
  /\ (forall s : string,
         APIDeviceActionStrategy.apply server self (Some [PStr s]) st
         = (Ok PNone, add_logged st [(ERROR, MsgWrongParam "list")])).
Proof. repeat split. Qed.

(** ** The two words for switching off *)




(** ** Rooms without switches *)

Lemma no_member_nil {A : Type} (l : list A) : (forall x, ~ In x l) -> l = [].
Proof.
  destruct l as [|a l]; [reflexivity|]. intros H. elim (H a). now left.
Qed.

(** X13: when the listing succeeds and no listed room has a switch (or no
    room is listed), the table is built empty: the first
    [get_vocal_commands] returns no phrase, after its one request. *)
Theorem no_switch_no_phrase (server : Server) (st : State)
        (data : list RawLocation) :
  let resp := server (sent st) (listing_request (credentials st)) in
  _commands st = None ->
  ~ (400 <= status_code resp < 600)%Z ->
  body resp = JsonObject (Some data) ->
  (forall room, In room data ->
                fst (switches (new_ZAutomationLocation room)) = []) ->
  let run := get_vocal_commands server st in
  fst run = Ok []
  /\ _commands (snd run) = Some PyDict.empty
  /\ sent (snd run) = sent st ++ [listing_request (credentials st)].
Proof.
  cbv zeta. intros Hn Hstatus Hbody Hnone.
  rewrite get_vocal_commands_unfold, Hn, init_commands_run. cbv zeta.
  rewrite (is_error_status_false _ Hstatus), Hbody.
  assert (Hw : command_writes
                 (APIDeviceActionStrategy.new (credentials st))
                 (collect_action_map (map new_ZAutomationLocation data))
               = []).
  { apply no_member_nil. intros [k v] H. apply in_command_writes in H.
    destruct H as (voc & action & room & devices & device & _ & Hget & Hdev
                   & _).
    apply collect_action_map_origin in Hget.
    destruct Hget as (r & Hr & _ & ->).
    apply in_map_iff in Hr. destruct Hr as (raw & <- & Hraw).
    rewrite (Hnone raw Hraw) in Hdev. destruct Hdev. }
  assert (Ht : _commands (commands_built st data) = Some PyDict.empty).
  { unfold commands_built, build_commands. cbn [_commands]. now rewrite Hw. }
  rewrite Ht. cbn [fst snd]. repeat split. exact Ht.
Qed.

Lemma no_switch_no_phrase_witness :
  let server :=
    serving [ {| title := "Attic";
                 namespaces := [ {| id := "devices_all"; params := [lamp] |} ] |} ] in
  let run := get_vocal_commands server (__init__ sample_credentials) in
  fst run = Ok []
  /\ _commands (snd run) = Some PyDict.empty
  /\ sent (snd run) = [] ++ [listing_request sample_credentials].
Proof.
  apply (no_switch_no_phrase
           (serving [ {| title := "Attic";
                         namespaces := [ {| id := "devices_all";
                                            params := [lamp] |} ] |} ])
           (__init__ sample_credentials)
           [ {| title := "Attic";
                namespaces := [ {| id := "devices_all"; params := [lamp] |} ] |} ]).
  - reflexivity.
  - cbn. lia.
  - reflexivity.
  - intros room [<-|[]]. reflexivity.
Defined.

(** ** The namespaces of a location *)

(** X14: the switches of a location are gathered namespace by namespace:
    those of a list of namespaces followed by another are the switches of
    the first followed by those of the second, and a namespace whose [id]
    is not [devices_switchBinary] adds nothing, whatever its [params]. *)
Theorem switches_by_namespace (t : string) (ns1 ns2 : list RawNamespace)
        (other : RawNamespace) :
  let of_namespaces ns :=
    fst (switches (new_ZAutomationLocation {| title := t; namespaces := ns |})) in
  of_namespaces (ns1 ++ ns2) = of_namespaces ns1 ++ of_namespaces ns2
  /\ (id other <> "devices_switchBinary" ->
      of_namespaces (ns1 ++ other :: ns2) = of_namespaces (ns1 ++ ns2))
  /\ (id other = "devices_switchBinary" ->
      of_namespaces [other] = map mkZAutomationDevice (params other)).
Proof.
  cbv beta zeta. rewrite !switches_fresh. cbn [fst].
  unfold switch_devices. cbn [namespaces].
  split; [|split].
  - now rewrite filter_app, flat_map_app.
  - intros H. rewrite !filter_app. cbn [filter].
    destruct (String.eqb_spec (id other) "devices_switchBinary");
      [contradiction | reflexivity].
  - intros H. cbn [filter]. rewrite H. cbn. apply app_nil_r.
Qed.

Lemma switches_by_namespace_witness :
  fst (switches
         (new_ZAutomationLocation
            {| title := "Hall";
               namespaces := [ {| id := "devices_switchBinary"; params := [lamp] |};
                               {| id := "devices_all"; params := [lamp; fan] |};
                               {| id := "devices_switchBinary"; params := [fan] |} ] |}))
  = fst (switches
           (new_ZAutomationLocation
              {| title := "Hall";
                 namespaces := [ {| id := "devices_switchBinary"; params := [lamp] |};
                                 {| id := "devices_switchBinary"; params := [fan] |} ] |})).
Proof.
  apply (switches_by_namespace "Hall"
           [ {| id := "devices_switchBinary"; params := [lamp] |} ]
           [ {| id := "devices_switchBinary"; params := [fan] |} ]
           {| id := "devices_all"; params := [lamp; fan] |}).
  discriminate.
Defined.

(** ** The entry point *)

Lemma googled_command_cleaned :
  clean_command (PStr googled_command)
  = Ok "wave on the plug switch in the living room".
Proof. reflexivity. Qed.


(** X15: when the listing raises, [main] stops there: it has printed the
    cleaned phrase only, the exception of the listing ends the run, and the
    listing request is the only request sent; no device command is tried. *)
Theorem main_listing_failure (server : Server) (creds : Credentials) (e : exn) :
  fst (__init_commands__ server (__init__ creds)) = Raise e ->
  main server creds
  = (["wave on the plug switch in the living room"], Raise e,
     listing_started (__init__ creds))
  /\ sent (listing_started (__init__ creds)) = [listing_request creds].
Proof.
  intros He. apply init_commands_failed in He.
  unfold main. rewrite googled_command_cleaned.
  rewrite get_vocal_commands_unfold. cbn [__init__ _commands].
  change {| credentials := creds; _commands := None; sent := [];
            logged := [] |} with (__init__ creds).
  rewrite He. split; reflexivity.
Qed.

Lemma main_listing_failure_witness :
  main unavailable sample_credentials
  = (["wave on the plug switch in the living room"], Raise (HTTPError 503),
     listing_started (__init__ sample_credentials))
  /\ sent (listing_started (__init__ sample_credentials))
     = [listing_request sample_credentials].
Proof.
  apply (main_listing_failure unavailable sample_credentials (HTTPError 503)).
  reflexivity.
Defined.



(** ** Which method builds the table *)

(** X17: the table an unbuilt helper ends up with does not depend on the
    method that is called first, nor on the order given: after a first
    [get_vocal_commands] and after a first [do_vocal_commands] the table is
    the one [__init_commands__] leaves, and the same requests but the
    device command, if any, have been sent. *)
Theorem first_call_builds_alike (server : Server) (st : State)
        (order : pyval) :
  _commands st = None ->
  let built := snd (__init_commands__ server st) in
  let listed := snd (get_vocal_commands server st) in
  let done := snd (do_vocal_commands server order st) in
  listed = built
  /\ _commands done = _commands built
  /\ (sent done = sent built
      \/ exists request, sent done = sent built ++ [request]).
Proof.
  intros Hn. cbv zeta.
  rewrite get_vocal_commands_unfold, do_vocal_commands_unfold, Hn.
  destruct (init_commands_assigns server st) as (d & Hd & _).
  destruct (__init_commands__ server st) as [[[]|e] st']; cbn [snd] in *.
  - rewrite Hd. cbn [snd]. split; [reflexivity|].
    destruct (dispatch_effect server order st' d Hd) as (_ & Hd' & Hs).
    split; [congruence|].
    destruct Hs as [Hs | (k & todo & _ & Hs)]; [now left|].
    right. now exists (action_request todo).
  - split; [reflexivity|]. split; [reflexivity | now left].
Qed.

Lemma first_call_builds_alike_witness :
  let server := serving [room_of "Hall" [lamp]] in
  let st := __init__ sample_credentials in
  snd (get_vocal_commands server st) = snd (__init_commands__ server st)
  /\ _commands (snd (do_vocal_commands server (PStr "wave on lamp in hall") st))
     = _commands (snd (__init_commands__ server st))
  /\ (sent (snd (do_vocal_commands server (PStr "wave on lamp in hall") st))
      = sent (snd (__init_commands__ server st))
      \/ exists request,
          sent (snd (do_vocal_commands server (PStr "wave on lamp in hall") st))
          = sent (snd (__init_commands__ server st)) ++ [request]).
Proof.
  apply (first_call_builds_alike (serving [room_of "Hall" [lamp]])
           (__init__ sample_credentials) (PStr "wave on lamp in hall")).
  reflexivity.
Defined.
